(** * openaix: resolving a chat-completion client from the environment

    Shallow embedding of [client.go] (package [openaix]) and the properties
    of its only function, [ClientFromEnv].

    The function reads four environment variables, switches on the value of
    [OPENAI_TYPE] and either builds a client through the wrapped library
    [github.com/sashabaranov/go-openai] or returns an error built with
    [errors.New].

    Modelling choices:
    - Go strings are byte sequences; they are [string] here, [+] is [+:+]
      and the [switch] on a string is byte-wise equality ([String.eqb]).
    - The process environment is a finite map from names to values;
      [os.Getenv] yields the empty string for a name that is not bound.
    - [*openai.Client] and [error] are references: a value of either type is
      [None] for [nil] and [Some l] for a location [l] of the store. Every
      constructor call allocates a fresh location, as [&Client{...}] and
      [&errorString{...}] do.
    - The wrapped library is not part of the package. It is taken as a
      parameter ([openai.Library]); the theorems hold for every library,
      and one instance, [go_openai.library], is used to evaluate the code
      on concrete environments. Its constructors return no error and are
      taken to allocate one object whose contents are a function of their
      arguments. *)

From Stdlib Require Import String Ascii List.
From stdpp Require Import base option list strings gmap.

Local Open Scope string_scope.
Local Open Scope list_scope.

(** ** The wrapped library, as far as [client.go] sees it *)

Module openai.

(** [openai.ClientConfig]: a struct of which the package touches one field,
    [APIVersion]; the remaining fields are kept together, untouched. *)
Record ClientConfig (R : Type) : Type := mkClientConfig {
  APIVersion : string;
  otherFields : R
}.
Arguments mkClientConfig {R} _ _.
Arguments APIVersion {R} _.
Arguments otherFields {R} _.

(** The three library entry points that [client.go] calls. None of them
    returns an error. [clientOfConfig] and [clientOfToken] give the
    *contents* of the [Client] that [NewClientWithConfig] and [NewClient]
    allocate. *)
Class Library : Type := {
  ConfigRest : Type;
  Client : Type;
  DefaultAzureConfig : string -> string -> ClientConfig ConfigRest;
  clientOfConfig : ClientConfig ConfigRest -> Client;
  clientOfToken : string -> Client
}.

End openai.

(** ** Store, environment and the monad of the package *)

Section Resolver.

Context {lib : openai.Library}.

(** Objects that live behind a reference. *)
Inductive Obj : Type :=
| ObjClient (c : openai.Client)      (* an [openai.Client] *)
| ObjError (text : string).          (* an [errors.errorString] *)

Definition loc : Type := nat.

Record World : Type := mkWorld {
  environ : gmap string string;
  heap : list Obj
}.

(** Computations that read the environment and allocate. *)
Definition M (A : Type) : Type := World -> A * World.

#[export] Instance M_ret : MRet M := fun A a w => (a, w).

#[export] Instance M_bind : MBind M :=
  fun A B k m w => let '(a, w') := m w in k a w'.

Definition alloc (o : Obj) : M loc :=
  fun w => (length (heap w), mkWorld (environ w) (heap w ++ [o])).

End Resolver.

Module os.
Section Os.
Context {lib : openai.Library}.

(** [os.Getenv]: the value of the variable, empty when it is not set. *)
Definition Getenv (key : string) : M string :=
  fun w => (default "" (environ w !! key), w).

End Os.
End os.

Module errors.
Section Errors.
Context {lib : openai.Library}.

(** [errors.New]: a fresh [*errorString] holding [text]. *)
Definition New (text : string) : M loc := alloc (ObjError text).

End Errors.
End errors.

Section Package.

Context {lib : openai.Library}.

(** [openai.NewClientWithConfig] and [openai.NewClient] return
    [*openai.Client]. *)
Definition NewClientWithConfig
    (config : openai.ClientConfig openai.ConfigRest) : M loc :=
  alloc (ObjClient (openai.clientOfConfig config)).

Definition NewClient (authToken : string) : M loc :=
  alloc (ObjClient (openai.clientOfToken authToken)).

(** The assignment [config.APIVersion = version]. *)
Definition set_APIVersion {R} (config : openai.ClientConfig R)
    (version : string) : openai.ClientConfig R :=
  openai.mkClientConfig version (openai.otherFields config).

(** [ClientFromEnv] of [client.go]. The two components of the result are
    the [*openai.Client] and the [error]. *)
Definition ClientFromEnv : M (option loc * option loc) :=
  kind ← os.Getenv "OPENAI_TYPE";
  endpoint ← os.Getenv "OPENAI_ENDPOINT";
  version ← os.Getenv "OPENAI_API_VERSION";
  key ← os.Getenv "OPENAI_API_KEY";
  if String.eqb kind "azure" then
    let config := openai.DefaultAzureConfig key endpoint in
    let config := set_APIVersion config version in
    c ← NewClientWithConfig config;
    mret (Some c, None)
  else if String.eqb kind "openai" then
    c ← NewClient key;
    mret (Some c, None)
  else
    e ← errors.New ("openaix: unknown OPENAI_TYPE: " +:+ kind);
    mret (None, Some e).

End Package.

(** ** Observing a call *)

Section Observations.

Context {lib : openai.Library}.

(** What [os.Getenv] reads for [key] in world [w]. *)
Definition env_value (w : World) (key : string) : string :=
  (os.Getenv key w).1.

(** The two components of the value returned by a call made in [w], and the
    world that the call leaves behind. *)
Definition result_client (w : World) : option loc := (ClientFromEnv w).1.1.
Definition result_error (w : World) : option loc := (ClientFromEnv w).1.2.
Definition world_after (w : World) : World := (ClientFromEnv w).2.

(** The object a reference points to; [None] for [nil]. *)
Definition deref (w : World) (r : option loc) : option Obj :=
  l ← r; heap w !! l.

(** The text that [ClientFromEnv] puts in its error. *)
Definition unknown_kind_text (kind : string) : string :=
  "openaix: unknown OPENAI_TYPE: " +:+ kind.

(** The configuration handed to the library on the ["azure"] branch. *)
Definition azure_config (w : World)
    : openai.ClientConfig openai.ConfigRest :=
  set_APIVersion
    (openai.DefaultAzureConfig (env_value w "OPENAI_API_KEY")
                               (env_value w "OPENAI_ENDPOINT"))
    (env_value w "OPENAI_API_VERSION").

(** The names that [ClientFromEnv] passes to [os.Getenv]. *)
Definition read_vars : list string :=
  ["OPENAI_TYPE"; "OPENAI_ENDPOINT"; "OPENAI_API_VERSION"; "OPENAI_API_KEY"].

End Observations.

(** ** Using the function *)

Section Callers.

Context {lib : openai.Library}.

(** A caller that resolves a client [n] times in a row and keeps every
    result, first call first. *)
Fixpoint calls (n : nat) : M (list (option loc * option loc)) :=
  match n with
  | 0 => mret []
  | S n' =>
      r ← ClientFromEnv;
      rs ← calls n';
      mret (r :: rs)
  end.

(** The literal that line 29 of [client.go] puts in front of the selector. *)
Definition error_prefix : string := "openaix: unknown OPENAI_TYPE: ".

(** What is left of an error text once the first [length error_prefix]
    bytes are cut off. *)
Definition selector_of_text (text : string) : string :=
  String.substring (String.length error_prefix)
                   (String.length text - String.length error_prefix) text.

End Callers.

(** ** One concrete library, for evaluating the code

    A small rendering of go-openai: the configuration keeps the token, the
    base URL and the API type next to [APIVersion], and a client is its
    configuration. The Azure defaults carry a built-in API version. *)

Module go_openai.

Inductive APIType : Type := APITypeOpenAI | APITypeAzure.

Record Rest : Type := mkRest {
  authToken : string;
  BaseURL : string;
  apiType : APIType
}.

Definition DefaultConfig (authToken : string) : openai.ClientConfig Rest :=
  openai.mkClientConfig ""
    (mkRest authToken "https://api.openai.com/v1" APITypeOpenAI).

Definition DefaultAzureConfig (apiKey baseURL : string)
    : openai.ClientConfig Rest :=
  openai.mkClientConfig "2023-05-15" (mkRest apiKey baseURL APITypeAzure).

Record Client : Type := mkClient { config : openai.ClientConfig Rest }.

Definition library : openai.Library := {|
  openai.ConfigRest := Rest;
  openai.Client := Client;
  openai.DefaultAzureConfig := DefaultAzureConfig;
  openai.clientOfConfig := mkClient;
  openai.clientOfToken := fun authToken => mkClient (DefaultConfig authToken)
|}.

End go_openai.

(** ** Concrete environments (the scenarios of the specification) *)

Definition world_of (l : list (string * string)) : @World go_openai.library :=
  mkWorld (list_to_map l) [].

Definition env_unset_kind : @World go_openai.library :=
  world_of [("OPENAI_API_KEY", "sk-test")].

Definition env_openai : @World go_openai.library :=
  world_of [("OPENAI_TYPE", "openai"); ("OPENAI_API_KEY", "sk-test")].

Definition env_azure : @World go_openai.library :=
  world_of [("OPENAI_TYPE", "azure");
            ("OPENAI_ENDPOINT", "https://x.openai.azure.com");
            ("OPENAI_API_VERSION", "2024-05-01");
            ("OPENAI_API_KEY", "sk-test")].

Definition env_azure_bare : @World go_openai.library :=
  world_of [("OPENAI_TYPE", "azure")].

Definition env_bogus : @World go_openai.library :=
  world_of [("OPENAI_TYPE", "bogus")].

Definition env_Azure : @World go_openai.library :=
  world_of [("OPENAI_TYPE", "Azure"); ("OPENAI_API_KEY", "sk-test")].

Definition env_OPENAI : @World go_openai.library :=
  world_of [("OPENAI_TYPE", "OPENAI"); ("OPENAI_API_KEY", "sk-test")].

Definition env_openai_padded : @World go_openai.library :=
  world_of [("OPENAI_TYPE", "openai "); ("OPENAI_API_KEY", "sk-test")].

(** [env_azure] with two more variables and a store that is not empty. *)
Definition env_azure_busy : @World go_openai.library :=
  mkWorld
    (<["HOME" := "/root"]> (<["OPENAI_ORG" := "acme"]> (environ env_azure)))
    [ObjError "earlier"].

(** ["openai"] with the two Azure variables set as well, and a store that
    is not empty. *)
Definition env_openai_extra : @World go_openai.library :=
  mkWorld
    (list_to_map [("OPENAI_TYPE", "openai");
                  ("OPENAI_ENDPOINT", "https://x.openai.azure.com");
                  ("OPENAI_API_VERSION", "2024-05-01");
                  ("OPENAI_API_KEY", "sk-test")])
    [ObjError "earlier"].

(** ["bogus"] with a key, an endpoint and a version. *)
Definition env_bogus_keyed : @World go_openai.library :=
  world_of [("OPENAI_TYPE", "bogus");
            ("OPENAI_ENDPOINT", "https://x.openai.azure.com");
            ("OPENAI_API_VERSION", "2024-05-01");
            ("OPENAI_API_KEY", "sk-secret")].

(** A client of the concrete library, as an object of the store. *)
Definition client_obj (c : go_openai.Client) : @Obj go_openai.library :=
  @ObjClient go_openai.library c.

(** ** Tactics *)

(** Evaluates a disequality between closed strings. *)
Ltac strings_differ := vm_compute; discriminate.

(** ** The code on the scenarios *)

Example run_unset_kind :
  ClientFromEnv env_unset_kind =
  ((None, Some 0),
   mkWorld (environ env_unset_kind)
           [ObjError "openaix: unknown OPENAI_TYPE: "]).
Proof. vm_compute. reflexivity. Qed.

Example run_azure :
  (ClientFromEnv env_azure).1 = (Some 0, None) /\
  heap (ClientFromEnv env_azure).2 =
  [client_obj (go_openai.mkClient
     (openai.mkClientConfig "2024-05-01"
        (go_openai.mkRest "sk-test" "https://x.openai.azure.com"
           go_openai.APITypeAzure)))].
Proof. vm_compute. split; reflexivity. Qed.

Example run_openai :
  (ClientFromEnv env_openai).1 = (Some 0, None) /\
  heap (ClientFromEnv env_openai).2 =
  [client_obj (go_openai.mkClient
     (openai.mkClientConfig ""
        (go_openai.mkRest "sk-test" "https://api.openai.com/v1"
           go_openai.APITypeOpenAI)))].
Proof. vm_compute. split; reflexivity. Qed.

(** With no [OPENAI_API_VERSION] the library's built-in version is replaced
    by the empty string. *)
Example run_azure_bare :
  heap (ClientFromEnv env_azure_bare).2 =
  [client_obj (go_openai.mkClient
     (openai.mkClientConfig ""
        (go_openai.mkRest "" "" go_openai.APITypeAzure)))].
Proof. vm_compute. reflexivity. Qed.

Example run_bogus :
  ClientFromEnv env_bogus =
  ((None, Some 0),
   mkWorld (environ env_bogus)
           [ObjError "openaix: unknown OPENAI_TYPE: bogus"]).
Proof. vm_compute. reflexivity. Qed.

Example run_OPENAI :
  ClientFromEnv env_OPENAI =
  ((None, Some 0),
   mkWorld (environ env_OPENAI)
           [ObjError "openaix: unknown OPENAI_TYPE: OPENAI"]).
Proof. vm_compute. reflexivity. Qed.

Example run_openai_padded :
  ClientFromEnv env_openai_padded =
  ((None, Some 0),
   mkWorld (environ env_openai_padded)
           [ObjError "openaix: unknown OPENAI_TYPE: openai "]).
Proof. vm_compute. reflexivity. Qed.

(** ** Equations of the embedding *)

Section Equations.

Context {lib : openai.Library}.

Implicit Types (w : World) (kind key : string).

(** [ClientFromEnv] as one conditional over the values it reads. *)
Lemma ClientFromEnv_unfold w :
  ClientFromEnv w =
  if String.eqb (env_value w "OPENAI_TYPE") "azure" then
    ((Some (length (heap w)), None),
     mkWorld (environ w)
       (heap w ++ [ObjClient (openai.clientOfConfig (azure_config w))]))
  else if String.eqb (env_value w "OPENAI_TYPE") "openai" then
    ((Some (length (heap w)), None),
     mkWorld (environ w)
       (heap w ++
        [ObjClient (openai.clientOfToken (env_value w "OPENAI_API_KEY"))]))
  else
    ((None, Some (length (heap w))),
     mkWorld (environ w)
       (heap w ++ [ObjError (unknown_kind_text (env_value w "OPENAI_TYPE"))])).
Proof.
  unfold ClientFromEnv, env_value, azure_config, unknown_kind_text.
  unfold mbind, M_bind, mret, M_ret, os.Getenv; cbn [fst snd].
  destruct (String.eqb _ "azure"); [reflexivity|].
  destruct (String.eqb _ "openai"); reflexivity.
Qed.

Lemma ClientFromEnv_azure w :
  env_value w "OPENAI_TYPE" = "azure" ->
  ClientFromEnv w =
  ((Some (length (heap w)), None),
   mkWorld (environ w)
     (heap w ++ [ObjClient (openai.clientOfConfig (azure_config w))])).
Proof. intros Hk. rewrite ClientFromEnv_unfold, Hk. reflexivity. Qed.

Lemma ClientFromEnv_openai w :
  env_value w "OPENAI_TYPE" = "openai" ->
  ClientFromEnv w =
  ((Some (length (heap w)), None),
   mkWorld (environ w)
     (heap w ++
      [ObjClient (openai.clientOfToken (env_value w "OPENAI_API_KEY"))])).
Proof. intros Hk. rewrite ClientFromEnv_unfold, Hk. reflexivity. Qed.

Lemma ClientFromEnv_other w :
  env_value w "OPENAI_TYPE" <> "azure" ->
  env_value w "OPENAI_TYPE" <> "openai" ->
  ClientFromEnv w =
  ((None, Some (length (heap w))),
   mkWorld (environ w)
     (heap w ++ [ObjError (unknown_kind_text (env_value w "OPENAI_TYPE"))])).
Proof.
  intros Ha Ho. rewrite ClientFromEnv_unfold.
  apply String.eqb_neq in Ha, Ho. rewrite Ha, Ho. reflexivity.
Qed.

(** The three ways the [switch] can go. *)
Lemma kind_cases w :
  env_value w "OPENAI_TYPE" = "azure" \/
  env_value w "OPENAI_TYPE" = "openai" \/
  (env_value w "OPENAI_TYPE" <> "azure" /\
   env_value w "OPENAI_TYPE" <> "openai").
Proof.
  destruct (String.eqb_spec (env_value w "OPENAI_TYPE") "azure"); [auto|].
  destruct (String.eqb_spec (env_value w "OPENAI_TYPE") "openai"); auto.
Qed.

(** A call only appends to the store and never writes the environment. *)
Lemma environ_after w : environ (world_after w) = environ w.
Proof.
  unfold world_after. rewrite ClientFromEnv_unfold.
  repeat case_match; reflexivity.
Qed.

Lemma env_value_after w key : env_value (world_after w) key = env_value w key.
Proof. unfold env_value, os.Getenv; cbn. by rewrite environ_after. Qed.

Lemma heap_after w : exists o, heap (world_after w) = heap w ++ [o].
Proof.
  unfold world_after. rewrite ClientFromEnv_unfold.
  repeat case_match; cbn; eauto.
Qed.

(** The object just allocated sits at the old length of the store. *)
Lemma lookup_fresh (h : list Obj) (o : Obj) : (h ++ [o]) !! length h = Some o.
Proof. rewrite lookup_app_r by lia. by rewrite Nat.sub_diag. Qed.


(** An unset variable reads like one set to the empty string. *)
Lemma env_value_delete (env : gmap string string) (h : list Obj) k key :
  env_value (mkWorld (delete k env) h) key =
  env_value (mkWorld (<[k := ""]> env) h) key.
Proof.
  unfold env_value, os.Getenv; cbn.
  destruct (decide (k = key)) as [->|Hne].
  - by rewrite lookup_delete_eq, lookup_insert_eq.
  - by rewrite lookup_delete_ne, lookup_insert_ne.
Qed.

End Equations.

(** Goals about the locations of two consecutive allocations. *)
Ltac two_fresh :=
  first
    [ rewrite length_app; cbn; lia
    | apply lookup_fresh
    | rewrite lookup_app_l by (rewrite length_app; cbn; lia);
      apply lookup_fresh ].

(** ** Properties of [ClientFromEnv] *)

Section Claims.

Context {lib : openai.Library}.

Implicit Types (w : World).

(** C2. When [OPENAI_TYPE] is none of the empty string, ["openai"] and
    ["azure"], the call fails: the client is [nil], the error is a non-nil
    reference to an error whose text is the fixed prefix followed by the
    selector as it was read. *)
Theorem unknown_selector_is_rejected w :
  env_value w "OPENAI_TYPE" <> "" ->
  env_value w "OPENAI_TYPE" <> "openai" ->
  env_value w "OPENAI_TYPE" <> "azure" ->
  result_client w = None /\
  exists e,
    result_error w = Some e /\
    heap (world_after w) !! e =
    Some (ObjError
            ("openaix: unknown OPENAI_TYPE: " +:+ env_value w "OPENAI_TYPE")).
Proof.
  intros _ Ho Ha.
  unfold result_client, result_error, world_after.
  rewrite (ClientFromEnv_other w Ha Ho); cbn.
  split; [reflexivity|].
  exists (length (heap w)). split; [reflexivity|].
  apply lookup_fresh.
Qed.

(** C3. When [OPENAI_TYPE] is ["azure"], the call succeeds with a non-nil
    client and a nil error. The client is the one the library builds from a
    configuration that is [DefaultAzureConfig key endpoint] in every field
    but [APIVersion], and whose [APIVersion] is the value of
    [OPENAI_API_VERSION] as read. *)
Theorem azure_selector_builds_enterprise_client w :
  env_value w "OPENAI_TYPE" = "azure" ->
  exists c config,
    result_client w = Some c /\
    result_error w = None /\
    heap (world_after w) !! c =
    Some (ObjClient (openai.clientOfConfig config)) /\
    openai.APIVersion config = env_value w "OPENAI_API_VERSION" /\
    openai.otherFields config =
    openai.otherFields
      (openai.DefaultAzureConfig (env_value w "OPENAI_API_KEY")
                                 (env_value w "OPENAI_ENDPOINT")).
Proof.
  intros Ha.
  exists (length (heap w)), (azure_config w).
  unfold result_client, result_error, world_after.
  rewrite (ClientFromEnv_azure w Ha); cbn.
  repeat split. apply lookup_fresh.
Qed.

(** C4. When [OPENAI_TYPE] is ["azure"] or ["openai"], the call succeeds
    with a non-nil client and a nil error, whatever the values of
    [OPENAI_API_KEY], [OPENAI_ENDPOINT] and [OPENAI_API_VERSION] are, the
    empty string included: none of them is checked. *)
Theorem explicit_selector_never_fails w :
  env_value w "OPENAI_TYPE" = "azure" \/
  env_value w "OPENAI_TYPE" = "openai" ->
  exists c client,
    result_client w = Some c /\
    result_error w = None /\
    heap (world_after w) !! c = Some (ObjClient client).
Proof.
  unfold result_client, result_error, world_after.
  intros [Ha|Ho].
  - rewrite (ClientFromEnv_azure w Ha); cbn.
    eexists _, _. repeat split. apply lookup_fresh.
  - rewrite (ClientFromEnv_openai w Ho); cbn.
    eexists _, _. repeat split. apply lookup_fresh.
Qed.

(** C5. The selector is compared byte for byte. When [OPENAI_TYPE] differs
    from both ["azure"] and ["openai"], neither construction branch runs:
    the client is [nil] and the only object the call allocates is the
    error. *)
Theorem inexact_selector_constructs_nothing w :
  env_value w "OPENAI_TYPE" <> "azure" ->
  env_value w "OPENAI_TYPE" <> "openai" ->
  result_client w = None /\
  heap (world_after w) =
  heap w ++ [ObjError (unknown_kind_text (env_value w "OPENAI_TYPE"))].
Proof.
  intros Ha Ho. unfold result_client, world_after.
  rewrite (ClientFromEnv_other w Ha Ho). split; reflexivity.
Qed.

(** C6. Two calls in a row, with nothing in between: neither writes the
    environment, both end the same way, and the references they return are
    distinct locations holding equal objects (equal clients on success,
    errors of equal text on failure); the second call leaves the object of
    the first in place. *)
Theorem two_calls_agree w :
  environ (world_after w) = environ w /\
  environ (world_after (world_after w)) = environ w /\
  ((exists c1 c2 client,
      result_client w = Some c1 /\ result_error w = None /\
      result_client (world_after w) = Some c2 /\
      result_error (world_after w) = None /\
      c1 <> c2 /\
      heap (world_after w) !! c1 = Some (ObjClient client) /\
      heap (world_after (world_after w)) !! c1 = Some (ObjClient client) /\
      heap (world_after (world_after w)) !! c2 = Some (ObjClient client))
   \/
   (exists e1 e2 text,
      result_client w = None /\ result_error w = Some e1 /\
      result_client (world_after w) = None /\
      result_error (world_after w) = Some e2 /\
      e1 <> e2 /\
      heap (world_after w) !! e1 = Some (ObjError text) /\
      heap (world_after (world_after w)) !! e1 = Some (ObjError text) /\
      heap (world_after (world_after w)) !! e2 = Some (ObjError text))).
Proof.
  split; [apply environ_after|].
  split; [by rewrite !environ_after|].
  assert (Hcfg : azure_config (world_after w) = azure_config w).
  { unfold azure_config. by rewrite !env_value_after. }
  pose proof (env_value_after w "OPENAI_TYPE") as Hk.
  pose proof (env_value_after w "OPENAI_API_KEY") as Hkey.
  unfold result_client, result_error.
  change (world_after (world_after w))
    with (ClientFromEnv (world_after w)).2.
  destruct (kind_cases w) as [Ha|[Ho|[Ha Ho]]].
  - left. eexists _, _, _.
    rewrite (ClientFromEnv_azure (world_after w)) by congruence.
    rewrite Hcfg. unfold world_after.
    rewrite (ClientFromEnv_azure w Ha); cbn.
    repeat split; two_fresh.
  - left. eexists _, _, _.
    rewrite (ClientFromEnv_openai (world_after w)) by congruence.
    rewrite Hkey. unfold world_after.
    rewrite (ClientFromEnv_openai w Ho); cbn.
    repeat split; two_fresh.
  - right. eexists _, _, _.
    rewrite (ClientFromEnv_other (world_after w)) by congruence.
    rewrite Hk. unfold world_after.
    rewrite (ClientFromEnv_other w Ha Ho); cbn.
    repeat split; two_fresh.
Qed.

(** C7. Two worlds in which [os.Getenv] reads the same four values, and
    which may differ in every other variable and in their stores: the two
    calls end the same way and the references they return point to equal
    objects; when the stores are equal too, the returned values and the
    stores left behind are equal. *)
Theorem result_depends_on_four_variables w1 w2 :
  env_value w1 "OPENAI_TYPE" = env_value w2 "OPENAI_TYPE" ->
  env_value w1 "OPENAI_ENDPOINT" = env_value w2 "OPENAI_ENDPOINT" ->
  env_value w1 "OPENAI_API_VERSION" = env_value w2 "OPENAI_API_VERSION" ->
  env_value w1 "OPENAI_API_KEY" = env_value w2 "OPENAI_API_KEY" ->
  (result_client w1 = None <-> result_client w2 = None) /\
  (result_error w1 = None <-> result_error w2 = None) /\
  deref (world_after w1) (result_client w1) =
  deref (world_after w2) (result_client w2) /\
  deref (world_after w1) (result_error w1) =
  deref (world_after w2) (result_error w2) /\
  (heap w1 = heap w2 ->
   (ClientFromEnv w1).1 = (ClientFromEnv w2).1 /\
   heap (world_after w1) = heap (world_after w2)).
Proof.
  intros Hkind Hendpoint Hversion Hkey.
  assert (Hcfg : azure_config w1 = azure_config w2).
  { unfold azure_config. by rewrite Hendpoint, Hversion, Hkey. }
  unfold result_client, result_error, world_after, deref.
  destruct (kind_cases w1) as [Ha|[Ho|[Ha Ho]]].
  - rewrite (ClientFromEnv_azure w1 Ha).
    rewrite (ClientFromEnv_azure w2) by congruence.
    rewrite Hcfg; cbn. rewrite !lookup_fresh.
    repeat split; try done. all: congruence.
  - rewrite (ClientFromEnv_openai w1 Ho).
    rewrite (ClientFromEnv_openai w2) by congruence.
    rewrite Hkey; cbn. rewrite !lookup_fresh.
    repeat split; try done. all: congruence.
  - rewrite (ClientFromEnv_other w1 Ha Ho).
    rewrite (ClientFromEnv_other w2) by congruence.
    rewrite Hkind; cbn. rewrite !lookup_fresh.
    repeat split; try done. all: congruence.
Qed.

(** C8. Of the two components of the result exactly one is [nil]: either
    the selector is ["azure"] or ["openai"], the client is a reference to a
    client and the error is [nil]; or the selector is neither, the client is
    [nil] and the error is a reference to an error. *)
Theorem exactly_one_of_client_and_error w :
  (exists c client,
     result_client w = Some c /\ result_error w = None /\
     heap (world_after w) !! c = Some (ObjClient client) /\
     (env_value w "OPENAI_TYPE" = "azure" \/
      env_value w "OPENAI_TYPE" = "openai"))
  \/
  (exists e text,
     result_client w = None /\ result_error w = Some e /\
     heap (world_after w) !! e = Some (ObjError text) /\
     env_value w "OPENAI_TYPE" <> "azure" /\
     env_value w "OPENAI_TYPE" <> "openai").
Proof.
  unfold result_client, result_error, world_after.
  destruct (kind_cases w) as [Ha|[Ho|[Ha Ho]]].
  - left. rewrite (ClientFromEnv_azure w Ha); cbn.
    eexists _, _. repeat split; [apply lookup_fresh | by left].
  - left. rewrite (ClientFromEnv_openai w Ho); cbn.
    eexists _, _. repeat split; [apply lookup_fresh | by right].
  - right. rewrite (ClientFromEnv_other w Ha Ho); cbn.
    eexists _, _. repeat split; [apply lookup_fresh | done | done].
Qed.

(** C9. When the call returns an error, the error's text is exactly
    ["openaix: unknown OPENAI_TYPE: "] followed by the value read for
    [OPENAI_TYPE], unchanged. *)
Theorem error_text_is_prefix_and_selector w e :
  result_error w = Some e ->
  heap (world_after w) !! e =
  Some (ObjError
          ("openaix: unknown OPENAI_TYPE: " +:+ env_value w "OPENAI_TYPE")).
Proof.
  unfold result_error, world_after.
  destruct (kind_cases w) as [Ha|[Ho|[Ha Ho]]].
  - by rewrite (ClientFromEnv_azure w Ha).
  - by rewrite (ClientFromEnv_openai w Ho).
  - rewrite (ClientFromEnv_other w Ha Ho); cbn.
    intros [= <-]. apply lookup_fresh.
Qed.

(** C10. For every variable name [k], hence for each of the four names the
    function reads, a call where [k] is not set and a call where [k] is set
    to the empty string return the same value and leave the same store. *)
Theorem unset_reads_as_empty (env : gmap string string) (h : list Obj)
    (k : string) :
  (ClientFromEnv (mkWorld (delete k env) h)).1 =
  (ClientFromEnv (mkWorld (<[k := ""]> env) h)).1 /\
  heap (world_after (mkWorld (delete k env) h)) =
  heap (world_after (mkWorld (<[k := ""]> env) h)).
Proof.
  unfold world_after. rewrite !ClientFromEnv_unfold.
  unfold azure_config. rewrite !env_value_delete.
  repeat case_match; split; reflexivity.
Qed.

(** C1 (the code departs from it). With [OPENAI_TYPE] not set and
    [OPENAI_API_KEY] set to ["sk-test"], the call does not build a client:
    it returns a [nil] client and an error whose text ends right after the
    prefix. *)
Theorem unset_selector_is_rejected (h : list Obj) :
  ClientFromEnv (mkWorld {[ "OPENAI_API_KEY" := "sk-test" ]} h) =
  ((None, Some (length h)),
   mkWorld {[ "OPENAI_API_KEY" := "sk-test" ]}
           (h ++ [ObjError "openaix: unknown OPENAI_TYPE: "])).
Proof.
  rewrite ClientFromEnv_other; [reflexivity | by vm_compute..].
Qed.

End Claims.

(** ** The theorems at the scenarios *)

Lemma unknown_selector_is_rejected_at_bogus :
  env_value env_bogus "OPENAI_TYPE" <> "" /\
  env_value env_bogus "OPENAI_TYPE" <> "openai" /\
  env_value env_bogus "OPENAI_TYPE" <> "azure" /\
  result_client env_bogus = None /\
  exists e,
    result_error env_bogus = Some e /\
    heap (world_after env_bogus) !! e =
    Some (ObjError
            ("openaix: unknown OPENAI_TYPE: " +:+
             env_value env_bogus "OPENAI_TYPE")).
Proof.
  split; [strings_differ|].
  split; [strings_differ|].
  split; [strings_differ|].
  apply (unknown_selector_is_rejected env_bogus); strings_differ.
Defined.

Lemma azure_selector_builds_enterprise_client_at_scenario :
  env_value env_azure "OPENAI_TYPE" = "azure" /\
  exists c config,
    result_client env_azure = Some c /\
    result_error env_azure = None /\
    heap (world_after env_azure) !! c =
    Some (ObjClient (openai.clientOfConfig config)) /\
    openai.APIVersion config = env_value env_azure "OPENAI_API_VERSION" /\
    openai.otherFields config =
    openai.otherFields
      (openai.DefaultAzureConfig (env_value env_azure "OPENAI_API_KEY")
                                 (env_value env_azure "OPENAI_ENDPOINT")).
Proof.
  split; [reflexivity|].
  apply (azure_selector_builds_enterprise_client env_azure); reflexivity.
Defined.

Lemma explicit_selector_never_fails_at_bare_azure :
  env_value env_azure_bare "OPENAI_API_KEY" = "" /\
  env_value env_azure_bare "OPENAI_ENDPOINT" = "" /\
  env_value env_azure_bare "OPENAI_API_VERSION" = "" /\
  (env_value env_azure_bare "OPENAI_TYPE" = "azure" \/
   env_value env_azure_bare "OPENAI_TYPE" = "openai") /\
  exists c client,
    result_client env_azure_bare = Some c /\
    result_error env_azure_bare = None /\
    heap (world_after env_azure_bare) !! c = Some (ObjClient client).
Proof.
  split; [reflexivity|].
  split; [reflexivity|].
  split; [reflexivity|].
  split; [left; reflexivity|].
  apply (explicit_selector_never_fails env_azure_bare); left; reflexivity.
Defined.

Lemma inexact_selector_constructs_nothing_at_Azure :
  env_value env_Azure "OPENAI_TYPE" <> "azure" /\
  env_value env_Azure "OPENAI_TYPE" <> "openai" /\
  result_client env_Azure = None /\
  heap (world_after env_Azure) =
  heap env_Azure ++
  [ObjError (unknown_kind_text (env_value env_Azure "OPENAI_TYPE"))].
Proof.
  split; [strings_differ|].
  split; [strings_differ|].
  apply (inexact_selector_constructs_nothing env_Azure); strings_differ.
Defined.

Lemma result_depends_on_four_variables_at_busy :
  environ env_azure <> environ env_azure_busy /\
  heap env_azure <> heap env_azure_busy /\
  (result_client env_azure = None <-> result_client env_azure_busy = None) /\
  (result_error env_azure = None <-> result_error env_azure_busy = None) /\
  deref (world_after env_azure) (result_client env_azure) =
  deref (world_after env_azure_busy) (result_client env_azure_busy) /\
  deref (world_after env_azure) (result_error env_azure) =
  deref (world_after env_azure_busy) (result_error env_azure_busy) /\
  (heap env_azure = heap env_azure_busy ->
   (ClientFromEnv env_azure).1 = (ClientFromEnv env_azure_busy).1 /\
   heap (world_after env_azure) = heap (world_after env_azure_busy)).
Proof.
  split.
  { intros Heq. apply (f_equal (fun m => m !! "HOME")) in Heq.
    vm_compute in Heq. discriminate. }
  split; [discriminate|].
  apply (result_depends_on_four_variables env_azure env_azure_busy);
    reflexivity.
Defined.

Lemma error_text_is_prefix_and_selector_at_bogus :
  result_error env_bogus = Some 0 /\
  heap (world_after env_bogus) !! 0 =
  Some (ObjError
          ("openaix: unknown OPENAI_TYPE: " +:+
           env_value env_bogus "OPENAI_TYPE")).
Proof.
  split; [reflexivity|].
  apply (error_text_is_prefix_and_selector env_bogus 0); reflexivity.
Defined.

(** ** Further properties of [ClientFromEnv] *)

Section Strings.

(** Cutting a prefix off a concatenation gives back the rest. *)
Lemma substring_whole (s : string) :
  String.substring 0 (String.length s) s = s.
Proof. induction s as [|c s IH]; cbn; [reflexivity | by rewrite IH]. Qed.

Lemma substring_after_prefix (p s : string) :
  String.substring (String.length p)
                   (String.length (p +:+ s) - String.length p) (p +:+ s) = s.
Proof.
  induction p as [|c p IH]; cbn.
  - rewrite Nat.sub_0_r. apply substring_whole.
  - apply IH.
Qed.

End Strings.

Section Further.

Context {lib : openai.Library}.

Implicit Types (w : World).

(** The object an error reference points to. *)
Lemma error_object w e :
  result_error w = Some e ->
  heap (world_after w) !! e =
  Some (ObjError (error_prefix +:+ env_value w "OPENAI_TYPE")).
Proof.
  unfold result_error, world_after.
  destruct (kind_cases w) as [Ha|[Ho|[Ha Ho]]].
  - by rewrite (ClientFromEnv_azure w Ha).
  - by rewrite (ClientFromEnv_openai w Ho).
  - rewrite (ClientFromEnv_other w Ha Ho); cbn.
    intros [= <-]. apply lookup_fresh.
Qed.



(** X1. On the ["openai"] branch the endpoint and the API version are not
    used: two worlds whose selector is ["openai"] and which read the same
    key get references to the same client, the one the library builds from
    the key alone, whatever their other variables and stores are; with
    equal stores the returned values and the stores left behind are equal. *)
Theorem openai_branch_uses_key_only w1 w2 :
  env_value w1 "OPENAI_TYPE" = "openai" ->
  env_value w2 "OPENAI_TYPE" = "openai" ->
  env_value w1 "OPENAI_API_KEY" = env_value w2 "OPENAI_API_KEY" ->
  deref (world_after w1) (result_client w1) =
  Some (ObjClient (openai.clientOfToken (env_value w1 "OPENAI_API_KEY"))) /\
  deref (world_after w2) (result_client w2) =
  deref (world_after w1) (result_client w1) /\
  result_error w1 = None /\ result_error w2 = None /\
  (heap w1 = heap w2 ->
   (ClientFromEnv w1).1 = (ClientFromEnv w2).1 /\
   heap (world_after w1) = heap (world_after w2)).
Proof.
  intros H1 H2 Hkey.
  unfold result_client, result_error, world_after, deref.
  rewrite (ClientFromEnv_openai w1 H1), (ClientFromEnv_openai w2 H2).
  rewrite Hkey; cbn. rewrite !lookup_fresh.
  repeat split; try done. all: congruence.
Qed.

(** X2. A failing call shows nothing but the selector: two worlds that read
    the same selector, different from ["azure"] and ["openai"], get
    references to errors of the same text and no client, whatever key,
    endpoint and version each of them holds; with equal stores the returned
    values and the stores left behind are equal. *)
Theorem failure_depends_on_selector_only w1 w2 :
  env_value w1 "OPENAI_TYPE" <> "azure" ->
  env_value w1 "OPENAI_TYPE" <> "openai" ->
  env_value w2 "OPENAI_TYPE" = env_value w1 "OPENAI_TYPE" ->
  deref (world_after w1) (result_error w1) =
  Some (ObjError (error_prefix +:+ env_value w1 "OPENAI_TYPE")) /\
  deref (world_after w2) (result_error w2) =
  deref (world_after w1) (result_error w1) /\
  result_client w1 = None /\ result_client w2 = None /\
  (heap w1 = heap w2 ->
   (ClientFromEnv w1).1 = (ClientFromEnv w2).1 /\
   heap (world_after w1) = heap (world_after w2)).
Proof.
  intros Ha Ho Hk.
  unfold result_client, result_error, world_after, deref.
  rewrite (ClientFromEnv_other w1 Ha Ho).
  rewrite (ClientFromEnv_other w2) by congruence.
  rewrite Hk; cbn. rewrite !lookup_fresh.
  repeat split; try done. all: congruence.
Qed.


(** X4. The selector can be read back from the error: when a call returns
    an error with text [text], cutting the first 30 bytes off [text] leaves
    the value read for [OPENAI_TYPE], byte for byte. *)
Theorem selector_read_back_from_error w e text :
  result_error w = Some e ->
  heap (world_after w) !! e = Some (ObjError text) ->
  String.length error_prefix = 30 /\
  selector_of_text text = env_value w "OPENAI_TYPE".
Proof.
  intros He Ht. split; [reflexivity|].
  rewrite (error_object w e He) in Ht. injection Ht as <-.
  apply substring_after_prefix.
Qed.


End Further.

(** ** The further properties at the scenarios *)

Example run_calls_bogus :
  calls 3 env_bogus =
  ([(None, Some 0); (None, Some 1); (None, Some 2)],
   mkWorld (environ env_bogus)
     (replicate 3 (ObjError "openaix: unknown OPENAI_TYPE: bogus"))).
Proof. vm_compute. reflexivity. Qed.

Example run_selector_of_text :
  selector_of_text "openaix: unknown OPENAI_TYPE: openai " = "openai ".
Proof. reflexivity. Qed.

Lemma openai_branch_uses_key_only_at_extra :
  env_value env_openai "OPENAI_ENDPOINT" <>
  env_value env_openai_extra "OPENAI_ENDPOINT" /\
  env_value env_openai "OPENAI_API_VERSION" <>
  env_value env_openai_extra "OPENAI_API_VERSION" /\
  deref (world_after env_openai) (result_client env_openai) =
  Some (ObjClient
          (openai.clientOfToken (env_value env_openai "OPENAI_API_KEY"))) /\
  deref (world_after env_openai_extra) (result_client env_openai_extra) =
  deref (world_after env_openai) (result_client env_openai) /\
  result_error env_openai = None /\ result_error env_openai_extra = None /\
  (heap env_openai = heap env_openai_extra ->
   (ClientFromEnv env_openai).1 = (ClientFromEnv env_openai_extra).1 /\
   heap (world_after env_openai) = heap (world_after env_openai_extra)).
Proof.
  split; [strings_differ|].
  split; [strings_differ|].
  apply (openai_branch_uses_key_only env_openai env_openai_extra);
    reflexivity.
Defined.

Lemma failure_depends_on_selector_only_at_keyed :
  env_value env_bogus "OPENAI_API_KEY" <>
  env_value env_bogus_keyed "OPENAI_API_KEY" /\
  deref (world_after env_bogus) (result_error env_bogus) =
  Some (ObjError (error_prefix +:+ env_value env_bogus "OPENAI_TYPE")) /\
  deref (world_after env_bogus_keyed) (result_error env_bogus_keyed) =
  deref (world_after env_bogus) (result_error env_bogus) /\
  result_client env_bogus = None /\ result_client env_bogus_keyed = None /\
  (heap env_bogus = heap env_bogus_keyed ->
   (ClientFromEnv env_bogus).1 = (ClientFromEnv env_bogus_keyed).1 /\
   heap (world_after env_bogus) = heap (world_after env_bogus_keyed)).
Proof.
  split; [strings_differ|].
  apply (failure_depends_on_selector_only env_bogus env_bogus_keyed);
    [strings_differ | strings_differ | reflexivity].
Defined.

Lemma selector_read_back_from_error_at_bogus :
  result_error env_bogus = Some 0 /\
  heap (world_after env_bogus) !! 0 =
  Some (ObjError "openaix: unknown OPENAI_TYPE: bogus") /\
  String.length error_prefix = 30 /\
  selector_of_text "openaix: unknown OPENAI_TYPE: bogus" =
  env_value env_bogus "OPENAI_TYPE".
Proof.
  split; [reflexivity|].
  split; [reflexivity|].
  apply (selector_read_back_from_error env_bogus 0); reflexivity.
Defined.
